(** * oteltest: the captured-telemetry data model

    A shallow embedding of [oteltest/__init__.py]: the dataclass [Request]
    and the class [Telemetry], with the queries [num_metrics],
    [metric_names], [num_spans] and [has_trace_header].

    Python objects that flow through these methods are decoded OTLP
    messages and transport headers: [None], booleans, integers, strings,
    lists and string-keyed dicts; an instance of [object] stands for
    whatever else a caller may put into a message, which none of the
    operations used here accepts.  Floating point numbers are left out.
    A [str] is a sequence of characters; Rocq's [string] stands for the
    strings whose characters fit one byte, so that [len] and iteration
    agree with [String.length] and the list of characters.  *)

From Stdlib Require Import List String Ascii ZArith Lia Bool DecimalString.
Import ListNotations.

Set Warnings "-register-all".

Local Open Scope string_scope.
Local Open Scope list_scope.
Local Open Scope Z_scope.

(** ** Python values and exceptions *)

Module Py.

(** A dict keeps its items in insertion order; keys are strings.
    [VObject id] is an instance of [object]: it cannot be subscripted,
    iterated, measured or written as JSON, it is hashable, and it is
    equal to itself only. *)
Inductive value : Type :=
| VNone
| VBool (b : bool)
| VInt (n : Z)
| VStr (s : string)
| VList (items : list value)
| VDict (items : list (string * value))
| VObject (id : nat).

Definition dict : Type := list (string * value).

(** The exceptions the modelled code can raise: [d[k]] on a missing key,
    and any operation applied to an object of the wrong type. *)
Inductive exn : Type :=
| KeyError (key : string)
| TypeError.

(** A computation either returns or raises. *)
Inductive result (A : Type) : Type :=
| Ok (a : A)
| Raise (e : exn).

Arguments Ok {A} a.
Arguments Raise {A} e.

Definition bind {A B : Type} (c : result A) (k : A -> result B) : result B :=
  match c with
  | Ok a => k a
  | Raise e => Raise e
  end.

Declare Scope py_scope.
Delimit Scope py_scope with py.
Notation "x <- c ;; k" := (bind c (fun x => k))
  (at level 61, c at next level, right associativity) : py_scope.

Local Open Scope py_scope.

(** [for x in xs: body], where [body] updates the local state [s].  The
    first exception raised by a body ends the loop and propagates. *)
Fixpoint for_each {A S : Type} (body : S -> A -> result S)
    (xs : list A) (s : S) : result S :=
  match xs with
  | [] => Ok s
  | x :: xs' => s' <- body s x ;; for_each body xs' s'
  end.

(** A list comprehension [[f(x) for x in xs]] with a fallible [f]. *)
Fixpoint map_each {A B : Type} (f : A -> result B) (xs : list A)
    : result (list B) :=
  match xs with
  | [] => Ok []
  | x :: xs' => y <- f x ;; ys <- map_each f xs' ;; Ok (y :: ys)
  end.

(** *** Dicts *)

Fixpoint lookup (k : string) (d : dict) : option value :=
  match d with
  | [] => None
  | (k', v) :: d' => if String.eqb k k' then Some v else lookup k d'
  end.

Definition keys (d : dict) : list string := map fst d.

(** [d.get(k)]: the value, or [None] when [k] is not a key of [d]. *)
Definition dict_get (d : dict) (k : string) : value :=
  match lookup k d with
  | Some v => v
  | None => VNone
  end.

(** *** Built-in operations on arbitrary objects *)

(** [v[k]] for a string [k]. *)
Definition subscript (v : value) (k : string) : result value :=
  match v with
  | VDict d =>
      match lookup k d with
      | Some x => Ok x
      | None => Raise (KeyError k)
      end
  | _ => Raise TypeError
  end.

Definition chars (s : string) : list value :=
  map (fun c => VStr (String c EmptyString)) (list_ascii_of_string s).

(** The items a [for] loop over [v] visits. *)
Definition iter (v : value) : result (list value) :=
  match v with
  | VList xs => Ok xs
  | VDict d => Ok (map VStr (keys d))
  | VStr s => Ok (chars s)
  | _ => Raise TypeError
  end.

(** [len(v)]. *)
Definition len (v : value) : result Z :=
  match v with
  | VList xs => Ok (Z.of_nat (List.length xs))
  | VDict d => Ok (Z.of_nat (List.length d))
  | VStr s => Ok (Z.of_nat (String.length s))
  | _ => Raise TypeError
  end.

Definition Z_of_bool (b : bool) : Z := if b then 1 else 0.

(** [a == b].  [bool] is a subclass of [int], so [True == 1]; lists are
    compared item by item, dicts as mappings, instances of [object] by
    identity. *)
Fixpoint py_eq (a b : value) {struct a} : bool :=
  match a, b with
  | VNone, VNone => true
  | VBool x, VBool y => Bool.eqb x y
  | VBool x, VInt y => Z.eqb (Z_of_bool x) y
  | VInt x, VBool y => Z.eqb x (Z_of_bool y)
  | VInt x, VInt y => Z.eqb x y
  | VStr x, VStr y => String.eqb x y
  | VList xs, VList ys =>
      (fix eq_items (xs ys : list value) {struct xs} : bool :=
         match xs, ys with
         | [], [] => true
         | x :: xs', y :: ys' => py_eq x y && eq_items xs' ys'
         | _, _ => false
         end) xs ys
  | VDict xs, VDict ys =>
      Nat.eqb (List.length xs) (List.length ys)
      && (fix eq_values (xs : dict) {struct xs} : bool :=
            match xs with
            | [] => true
            | (k, x) :: xs' =>
                match lookup k ys with
                | Some y => py_eq x y && eq_values xs'
                | None => false
                end
            end) xs
  | VObject i, VObject j => Nat.eqb i j
  | _, _ => false
  end.

(** *** Sets *)

(** A [set] holds hashable objects, no two of them equal; it is kept
    here as the list of its elements in the order they were added. *)
Definition pyset : Type := list value.

Definition hashable (v : value) : bool :=
  match v with
  | VList _ | VDict _ => false
  | _ => true
  end.

Definition set_mem (v : value) (s : pyset) : bool := existsb (py_eq v) s.

(** [s.add(v)]. *)
Definition set_add (s : pyset) (v : value) : result pyset :=
  if hashable v then Ok (if set_mem v s then s else s ++ [v])
  else Raise TypeError.

End Py.

Import Py.
Local Open Scope py_scope.

(** ** json.dumps *)

Module Json.

Local Open Scope nat_scope.
Local Open Scope string_scope.

Definition dquote : ascii := ascii_of_nat 34.
Definition backslash : ascii := ascii_of_nat 92.
Definition newline : ascii := ascii_of_nat 10.

Definition hex_digit (n : nat) : ascii :=
  match n with
  | 0 => "0" | 1 => "1" | 2 => "2" | 3 => "3" | 4 => "4" | 5 => "5"
  | 6 => "6" | 7 => "7" | 8 => "8" | 9 => "9" | 10 => "a" | 11 => "b"
  | 12 => "c" | 13 => "d" | 14 => "e" | _ => "f"
  end%char.

Definition escaped (letter : ascii) : string :=
  String backslash (String letter EmptyString).

(** One character of a string, with [ensure_ascii]: printable ASCII as
    it is, the quote, the backslash and five control characters by
    their short escapes, every other character as [\u00xx]. *)
Definition escape_char (c : ascii) : string :=
  let n := nat_of_ascii c in
  if Nat.eqb n 34 then escaped dquote
  else if Nat.eqb n 92 then escaped backslash
  else if Nat.eqb n 10 then escaped "n"
  else if Nat.eqb n 13 then escaped "r"
  else if Nat.eqb n 9 then escaped "t"
  else if Nat.eqb n 12 then escaped "f"
  else if Nat.eqb n 8 then escaped "b"
  else if Nat.leb 32 n && Nat.leb n 126 then String c EmptyString
  else String backslash
         ("u00" ++ String (hex_digit (n / 16))
                     (String (hex_digit (n mod 16)) EmptyString)).

Fixpoint escape (s : string) : string :=
  match s with
  | EmptyString => EmptyString
  | String c s' => escape_char c ++ escape s'
  end.

Definition quoted (s : string) : string :=
  String dquote (escape s ++ String dquote EmptyString).

Definition decimal (n : Z) : string := NilZero.string_of_int (Z.to_int n).

Fixpoint join (sep : string) (parts : list string) : string :=
  match parts with
  | [] => EmptyString
  | [part] => part
  | part :: parts' => part ++ sep ++ join sep parts'
  end.

Fixpoint spaces (n : nat) : string :=
  match n with
  | 0 => EmptyString
  | S n' => String " " (spaces n')
  end.

(** The text between the brackets of a non-empty list or dict at
    nesting depth [level]: on one line without [indent], one part per
    line with it. *)
Definition layout (indent : option nat) (level : nat) (parts : list string)
    : string :=
  match indent with
  | None => join ", " parts
  | Some n =>
      String newline (spaces (n * S level))
      ++ join ("," ++ String newline (spaces (n * S level))) parts
      ++ String newline (spaces (n * level))
  end.

(** [json.dumps(v, indent=indent)] with the other options at their
    defaults.  An object that is not JSON raises [TypeError]. *)
Fixpoint encode (indent : option nat) (level : nat) (v : value)
    {struct v} : result string :=
  match v with
  | VNone => Ok "null"
  | VBool true => Ok "true"
  | VBool false => Ok "false"
  | VInt n => Ok (decimal n)
  | VStr s => Ok (quoted s)
  | VList [] => Ok "[]"
  | VList xs =>
      parts <- map_each (encode indent (S level)) xs ;;
      Ok ("[" ++ layout indent level parts ++ "]")
  | VDict [] => Ok "{}"
  | VDict d =>
      parts <-
        map_each (fun item : string * value =>
                    let (k, x) := item in
                    part <- encode indent (S level) x ;;
                    Ok (quoted k ++ ": " ++ part)) d ;;
      Ok ("{" ++ layout indent level parts ++ "}")
  | VObject _ => Raise TypeError
  end.

Definition json_dumps (indent : option nat) (v : value) : result string :=
  encode indent 0 v.

End Json.

(** ** class Request *)

Module Request.

(** The dataclass: a decoded message, the headers that came with it, and
    the time since the start of the test. *)
Record t : Type := Build {
  message : dict;
  headers : dict;
  test_elapsed_ms : Z
}.

Definition get_header (self : t) (name : string) : value :=
  dict_get (headers self) name.

Definition to_dict (self : t) : value :=
  VDict [ ("request", VDict (message self));
          ("headers", VDict (headers self));
          ("test_elapsed_ms", VInt (test_elapsed_ms self)) ].

Definition to_json (self : t) : result string :=
  Json.json_dumps None (to_dict self).

End Request.

(** ** class Telemetry *)

Module Telemetry.

Record t : Type := Build {
  log_requests : list Request.t;
  metric_requests : list Request.t;
  trace_requests : list Request.t
}.

(** [xs or []] for an optional list argument: [None] and the empty list
    are both falsy. *)
Definition or_empty (xs : option (list Request.t)) : list Request.t :=
  match xs with
  | Some (x :: xs') => x :: xs'
  | _ => []
  end.

Definition init (log_requests metric_requests trace_requests
    : option (list Request.t)) : t :=
  Build (or_empty log_requests) (or_empty metric_requests)
        (or_empty trace_requests).

Definition add_log (self : t) (log headers : dict) (test_elapsed_ms : Z) : t :=
  Build (log_requests self ++ [Request.Build log headers test_elapsed_ms])
        (metric_requests self) (trace_requests self).

Definition add_metric (self : t) (metric headers : dict)
    (test_elapsed_ms : Z) : t :=
  Build (log_requests self)
        (metric_requests self
           ++ [Request.Build metric headers test_elapsed_ms])
        (trace_requests self).

Definition add_trace (self : t) (trace headers : dict)
    (test_elapsed_ms : Z) : t :=
  Build (log_requests self) (metric_requests self)
        (trace_requests self
           ++ [Request.Build trace headers test_elapsed_ms]).

Definition get_trace_requests (self : t) : list Request.t :=
  trace_requests self.

Definition num_metrics (self : t) : result Z :=
  for_each (fun out req =>
    rms <- subscript (VDict (Request.message req)) "resourceMetrics" ;;
    rms <- iter rms ;;
    for_each (fun out rm =>
      sms <- subscript rm "scopeMetrics" ;;
      sms <- iter sms ;;
      for_each (fun out sm =>
        ms <- subscript sm "metrics" ;;
        n <- len ms ;;
        Ok (out + n)) sms out) rms out)
    (metric_requests self) 0.

Definition metric_names (self : t) : result pyset :=
  for_each (fun out req =>
    rms <- subscript (VDict (Request.message req)) "resourceMetrics" ;;
    rms <- iter rms ;;
    for_each (fun out rm =>
      sms <- subscript rm "scopeMetrics" ;;
      sms <- iter sms ;;
      for_each (fun out sm =>
        ms <- subscript sm "metrics" ;;
        ms <- iter ms ;;
        for_each (fun out metric =>
          name <- subscript metric "name" ;;
          set_add out name) ms out) sms out) rms out)
    (metric_requests self) [].

Definition num_spans (self : t) : result Z :=
  for_each (fun out req =>
    rss <- subscript (VDict (Request.message req)) "resourceSpans" ;;
    rss <- iter rss ;;
    for_each (fun out rs =>
      sss <- subscript rs "scopeSpans" ;;
      sss <- iter sss ;;
      for_each (fun out ss =>
        spans <- subscript ss "spans" ;;
        n <- len spans ;;
        Ok (out + n)) sss out) rss out)
    (trace_requests self) 0.

(** The loop of [has_trace_header]: return [True] at the first request
    whose header equals [expected], [False] when the list is used up. *)
Fixpoint has_header_in (reqs : list Request.t) (key : string)
    (expected : value) : bool :=
  match reqs with
  | [] => false
  | req :: reqs' =>
      let actual := Request.get_header req key in
      if py_eq expected actual then true
      else has_header_in reqs' key expected
  end.

Definition has_trace_header (self : t) (key : string) (expected : value)
    : bool :=
  has_header_in (trace_requests self) key expected.

Definition to_dict (self : t) : value :=
  VDict [ ("log_requests",
           VList (map Request.to_dict (log_requests self)));
          ("metric_requests",
           VList (map Request.to_dict (metric_requests self)));
          ("trace_requests",
           VList (map Request.to_dict (trace_requests self))) ].

Definition to_json (self : t) : result string :=
  Json.json_dumps (Some 2%nat) (to_dict self).

(** [__str__]. *)
Definition str (self : t) : result string := to_json self.

End Telemetry.

(** ** Rebuilding a collection from its structured form *)

Module Rebuild.

(** Modelled from the spec: the step that rebuilds a [Request] from its
    structured form, [Request(d["request"], d["headers"],
    d["test_elapsed_ms"])], is not part of the module; the fields must
    have the types the dataclass declares. *)
Definition request_of_dict (d : value) : result Request.t :=
  message <- subscript d "request" ;;
  headers <- subscript d "headers" ;;
  test_elapsed_ms <- subscript d "test_elapsed_ms" ;;
  match message, headers, test_elapsed_ms with
  | VDict m, VDict h, VInt ms => Ok (Request.Build m h ms)
  | _, _, _ => Raise TypeError
  end.

Definition requests_of (d : value) (field : string)
    : result (list Request.t) :=
  entries <- subscript d field ;;
  entries <- iter entries ;;
  map_each request_of_dict entries.

(** Modelled from the spec: a second collection is constructed from the
    three record fields of [to_dict]'s output, each record rebuilt and
    the lists handed to [Telemetry.__init__]. *)
Definition telemetry_of_dict (d : value) : result Telemetry.t :=
  logs <- requests_of d "log_requests" ;;
  metrics <- requests_of d "metric_requests" ;;
  traces <- requests_of d "trace_requests" ;;
  Ok (Telemetry.init (Some logs) (Some metrics) (Some traces)).

End Rebuild.

(** ** Sequences of append calls *)

Module Calls.

Inductive call : Type :=
| AddLog (log headers : dict) (test_elapsed_ms : Z)
| AddMetric (metric headers : dict) (test_elapsed_ms : Z)
| AddTrace (trace headers : dict) (test_elapsed_ms : Z).

Definition apply (self : Telemetry.t) (c : call) : Telemetry.t :=
  match c with
  | AddLog m h ms => Telemetry.add_log self m h ms
  | AddMetric m h ms => Telemetry.add_metric self m h ms
  | AddTrace m h ms => Telemetry.add_trace self m h ms
  end.

(** The calls made, one after the other, on a collection created with
    no arguments. *)
Definition run (cs : list call) : Telemetry.t :=
  fold_left apply cs (Telemetry.init None None None).

(** The records handed to each kind of call, in the order of the calls. *)
Definition logs_of (cs : list call) : list Request.t :=
  flat_map (fun c => match c with
                     | AddLog m h ms => [Request.Build m h ms]
                     | _ => []
                     end) cs.

Definition metrics_of (cs : list call) : list Request.t :=
  flat_map (fun c => match c with
                     | AddMetric m h ms => [Request.Build m h ms]
                     | _ => []
                     end) cs.

Definition traces_of (cs : list call) : list Request.t :=
  flat_map (fun c => match c with
                     | AddTrace m h ms => [Request.Build m h ms]
                     | _ => []
                     end) cs.

End Calls.

(** ** The nested schema of a message *)

Module Schema.

Definition metrics_path : list string :=
  ["resourceMetrics"; "scopeMetrics"; "metrics"].

Definition spans_path : list string :=
  ["resourceSpans"; "scopeSpans"; "spans"].

(** The field [k] of an object, when it is a dict with that key and the
    field is a list. *)
Definition list_field (k : string) (v : value) : option (list value) :=
  match v with
  | VDict d =>
      match lookup k d with
      | Some (VList xs) => Some xs
      | _ => None
      end
  | _ => None
  end.

Definition str_field (k : string) (v : value) : option string :=
  match v with
  | VDict d =>
      match lookup k d with
      | Some (VStr s) => Some s
      | _ => None
      end
  | _ => None
  end.

Fixpoint traverse {A B : Type} (f : A -> option B) (xs : list A)
    : option (list B) :=
  match xs with
  | [] => Some []
  | x :: xs' =>
      match f x, traverse f xs' with
      | Some y, Some ys => Some (y :: ys)
      | _, _ => None
      end
  end.

(** The objects reached from [v] by descending through the keys of
    [path], each key naming a list field whose items are visited in
    order.  [None] when an object on the way does not have the shape
    the schema asks for. *)
Fixpoint reach (path : list string) (v : value) : option (list value) :=
  match path with
  | [] => Some [v]
  | k :: path' =>
      match list_field k v with
      | Some xs => option_map (@List.concat value) (traverse (reach path') xs)
      | None => None
      end
  end.

(** The innermost sequences of a message, one per object reached
    through the first two keys of [path]; the last key names the
    sequence. *)
Definition innermost (path : list string) (req : Request.t)
    : option (list (list value)) :=
  match reach (removelast path) (VDict (Request.message req)) with
  | Some scopes => traverse (list_field (last path "")) scopes
  | None => None
  end.

Definition conforms (path : list string) (req : Request.t) : Prop :=
  innermost path req <> None.

Definition sum_lengths (seqs : list (list value)) : Z :=
  fold_right (fun xs n => Z.of_nat (List.length xs) + n) 0 seqs.

(** The sum of the lengths of the innermost sequences of a message. *)
Definition leaf_count (path : list string) (req : Request.t) : Z :=
  match innermost path req with
  | Some seqs => sum_lengths seqs
  | None => 0
  end.

Definition total (path : list string) (reqs : list Request.t) : Z :=
  fold_right (fun req n => leaf_count path req + n) 0 reqs.

(** The names of the metric entries of a message: every entry reached
    is a dict whose [name] is a string. *)
Definition names_of (req : Request.t) : option (list string) :=
  match reach metrics_path (VDict (Request.message req)) with
  | Some entries => traverse (str_field "name") entries
  | None => None
  end.

Definition names_conform (req : Request.t) : Prop := names_of req <> None.

Definition all_names (reqs : list Request.t) : list string :=
  flat_map (fun req => match names_of req with
                       | Some ns => ns
                       | None => []
                       end) reqs.

(** A key is missing at a traversed level: the object reached there is
    a dict without the key the traversal reads next. *)
Inductive missing_key : list string -> value -> Prop :=
| missing_here k path d :
    lookup k d = None ->
    missing_key (k :: path) (VDict d)
| missing_below k path d xs x :
    lookup k d = Some (VList xs) ->
    In x xs ->
    missing_key path x ->
    missing_key (k :: path) (VDict d).

Definition malformed (path : list string) (req : Request.t) : Prop :=
  missing_key path (VDict (Request.message req)).

End Schema.

(** ** The common shape of the traversals *)

Module Walk.

(** [num_metrics], [metric_names] and [num_spans] are nests of the same
    loop, [for x in v[k]: ...]; [walk] is that nest for a list of keys,
    with the innermost body left open.  The methods are shown equal to
    instances of it, and the lemmas about the loops are proved once. *)
Fixpoint walk {S : Type} (path : list string) (leaf : S -> value -> result S)
    (s : S) (v : value) {struct path} : result S :=
  match path with
  | [] => leaf s v
  | k :: path' =>
      xs <- subscript v k ;;
      xs <- iter xs ;;
      for_each (walk path' leaf) xs s
  end.

(** [out += len(v[k])]. *)
Definition count_leaf (k : string) (out : Z) (v : value) : result Z :=
  xs <- subscript v k ;;
  n <- len xs ;;
  Ok (out + n).

(** [out.add(v[k])]. *)
Definition add_leaf (k : string) (out : pyset) (v : value) : result pyset :=
  name <- subscript v k ;;
  set_add out name.

Definition over_messages {S : Type} (body : S -> value -> result S)
    (reqs : list Request.t) (s : S) : result S :=
  for_each (fun out req => body out (VDict (Request.message req))) reqs s.

End Walk.

Import Schema Walk.

(** ** Auxiliary definitions *)

Module Aux.

(** The length [count_leaf] adds for an object whose field is a list. *)
Definition field_length (k : string) (v : value) : Z :=
  match list_field k v with
  | Some xs => Z.of_nat (List.length xs)
  | None => 0
  end.

(** What [out.add(name)] does to the set when [name] is a string. *)
Definition add_name (out : pyset) (name : string) : pyset :=
  if set_mem (VStr name) out then out else out ++ [VStr name].

Definition add_entry (out : pyset) (entry : value) : pyset :=
  match str_field "name" entry with
  | Some name => add_name out name
  | None => out
  end.

End Aux.

(** ** Sample collections *)

Module Samples.

(** A message with [n1] resourceMetrics, each with [n2] scopeMetrics,
    each with [n3] metrics. *)
Definition metric_entry (name : string) : value := VDict [("name", VStr name)].

Definition synthetic (n1 n2 n3 : nat) : dict :=
  [("resourceMetrics",
    VList (repeat (VDict [("scopeMetrics",
      VList (repeat (VDict [("metrics",
        VList (repeat (metric_entry "m") n3))]) n2))]) n1))].

(** Two metric requests, each with one metric named [name]. *)
Definition named_once (name : string) : dict :=
  [("resourceMetrics",
    VList [VDict [("scopeMetrics",
      VList [VDict [("metrics", VList [metric_entry name])]])]])].

Definition two_latency : Telemetry.t :=
  Telemetry.add_metric
    (Telemetry.add_metric (Telemetry.init None None None)
       (named_once "latency") [] 0)
    (named_once "latency") [] 1.

(** A collection whose second metric request lacks [metrics] in a
    scope, after a well-formed first one, and whose trace request is
    empty. *)
Definition broken : Telemetry.t :=
  Telemetry.add_trace
    (Telemetry.add_metric
       (Telemetry.add_metric (Telemetry.init None None None)
          (synthetic 1 1 2) [] 0)
       [("resourceMetrics", VList [VDict [("scopeMetrics",
           VList [VDict [("metrics", VList [metric_entry "a"])];
                  VDict []])]])] [] 1)
    [] [] 2.

(** One trace request, without headers. *)
Definition bare_trace : Telemetry.t :=
  Telemetry.add_trace (Telemetry.init None None None) [] [] 0.

(** A second trace request, with the header [x-test: abc]. *)
Definition abc_trace : Telemetry.t :=
  Telemetry.add_trace bare_trace [] [("x-test", VStr "abc")] 5.

End Samples.

(** ** Further definitions *)

Module More.

(** The metric entries of a message whose nesting has the shape of the
    schema. *)
Definition entries_of (req : Request.t) : list value :=
  match reach metrics_path (VDict (Request.message req)) with
  | Some entries => entries
  | None => []
  end.

Definition well_nested (req : Request.t) : Prop :=
  reach metrics_path (VDict (Request.message req)) <> None.

(** An entry [metric_names] can take the name of: a dict whose [name]
    is hashable. *)
Definition named (entry : value) : bool :=
  match entry with
  | VDict d =>
      match lookup "name" d with
      | Some name => hashable name
      | None => false
      end
  | _ => false
  end.

(** What [out.add(entry["name"])] leaves in [out] when it returns. *)
Definition add_named (out : pyset) (entry : value) : pyset :=
  match add_leaf "name" out entry with
  | Ok out' => out'
  | Raise _ => out
  end.

(** The elements are hashable and no element compares equal to one
    added before it. *)
Definition is_set (out : pyset) : Prop :=
  Forall (fun v => hashable v = true) out
  /\ ForallOrdPairs (fun a b => py_eq b a = false) out.

(** A value of [resourceMetrics] that is not a list and that a loop
    does not pass over without a step: anything but a list, an empty
    dict and an empty string. *)
Definition breaks_loop (v : value) : bool :=
  match v with
  | VList _ => false
  | VDict [] => false
  | VStr EmptyString => false
  | _ => true
  end.

(** A message with [n1] resourceSpans, each with [n2] scopeSpans, each
    with [n3] spans. *)
Definition synthetic_spans (n1 n2 n3 : nat) : dict :=
  [("resourceSpans",
    VList (repeat (VDict [("scopeSpans",
      VList (repeat (VDict [("spans",
        VList (repeat (VDict [("name", VStr "s")]) n3))]) n2))]) n1))].

Definition three_traces : Telemetry.t :=
  Telemetry.add_trace
    (Telemetry.add_trace (Telemetry.init None None None)
       (synthetic_spans 1 2 2) [] 0)
    (synthetic_spans 3 1 1) [("x-test", VStr "abc")] 4.

(** A message whose only metric entry has a list for a name. *)
Definition list_named : dict :=
  [("resourceMetrics",
    VList [VDict [("scopeMetrics",
      VList [VDict [("metrics",
        VList [VDict [("name", VList [VStr "a"])]])]])]])].

(** A message whose [resourceMetrics] is [v]. *)
Definition with_resource_metrics (v : value) : dict :=
  [("resourceMetrics", v)].

End More.

(** ** JSON texts *)

Module Text.



(** A request with two headers. *)
Definition two_headers : Request.t :=
  Request.Build []
    [("X-Test", VStr "abc"); ("content-type", VStr "application/json")] 7.

End Text.

(** * Properties *)

Import Aux Samples More Text.

(** ** Loops *)

Section Loops.
Context {A S : Type}.
Variable body : S -> A -> result S.

(** A loop raises as soon as one item makes the body raise whatever
    the state is. *)
Lemma for_each_raises (xs : list A) (x : A) :
  In x xs ->
  (forall s, exists e, body s x = Raise e) ->
  forall s, exists e, for_each body xs s = Raise e.
Proof.
  induction xs as [| y xs IH]; intros Hin Hx s; simpl.
  - contradiction.
  - destruct (body s y) as [s' | e] eqn:Hy; simpl.
    + destruct Hin as [-> | Hin].
      * destruct (Hx s) as [e He]. congruence.
      * apply IH; assumption.
    + exists e. reflexivity.
Qed.

End Loops.

(** ** Dicts and equality *)

Lemma lookup_In (k : string) (d : dict) (v : value) :
  lookup k d = Some v -> In (k, v) d.
Proof.
  induction d as [| [k' v'] d IH]; simpl; intros H.
  - discriminate.
  - destruct (String.eqb k k') eqn:E.
    + apply String.eqb_eq in E. injection H as <-. subst. left. reflexivity.
    + right. apply IH. exact H.
Qed.

Lemma lookup_None (k : string) (d : dict) :
  lookup k d = None <-> ~ In k (keys d).
Proof.
  induction d as [| [k' v'] d IH]; simpl.
  - split; [intros _ [] | reflexivity].
  - destruct (String.eqb k k') eqn:E.
    + apply String.eqb_eq in E. subst. split; [discriminate | intros H].
      exfalso. apply H. left. reflexivity.
    + apply String.eqb_neq in E. rewrite IH. split.
      * intros H [Heq | Hin]; [congruence | contradiction].
      * intros H Hin. apply H. right. exact Hin.
Qed.

Lemma py_eq_str (s : string) (v : value) :
  py_eq (VStr s) v = true <-> v = VStr s.
Proof.
  destruct v; simpl; try (split; [discriminate | congruence]).
  rewrite String.eqb_eq. split; congruence.
Qed.

Lemma py_eq_None_r (v : value) : py_eq v VNone = true <-> v = VNone.
Proof.
  destruct v; simpl; split; try discriminate; congruence.
Qed.

(** ** The methods as instances of [walk] *)

Lemma num_metrics_walk (t : Telemetry.t) :
  Telemetry.num_metrics t
  = over_messages (walk ["resourceMetrics"; "scopeMetrics"]
                        (count_leaf "metrics"))
                  (Telemetry.metric_requests t) 0.
Proof. reflexivity. Qed.

Lemma num_spans_walk (t : Telemetry.t) :
  Telemetry.num_spans t
  = over_messages (walk ["resourceSpans"; "scopeSpans"]
                        (count_leaf "spans"))
                  (Telemetry.trace_requests t) 0.
Proof. reflexivity. Qed.

Lemma metric_names_walk (t : Telemetry.t) :
  Telemetry.metric_names t
  = over_messages (walk metrics_path (add_leaf "name"))
                  (Telemetry.metric_requests t) [].
Proof. reflexivity. Qed.

(** ** Conforming messages *)

Lemma traverse_In {A B : Type} (f : A -> option B) (xs : list A)
    (ys : list B) (x : A) :
  traverse f xs = Some ys -> In x xs -> exists y, f x = Some y /\ In y ys.
Proof.
  revert ys. induction xs as [| a xs IH]; simpl; intros ys H Hin.
  - contradiction.
  - destruct (f a) as [b |] eqn:Ha; [| discriminate].
    destruct (traverse f xs) as [bs |] eqn:Hxs; [| discriminate].
    injection H as <-. destruct Hin as [-> | Hin].
    + exists b. split; [exact Ha | left; reflexivity].
    + destruct (IH bs eq_refl Hin) as [y [Hy Hyin]].
      exists y. split; [exact Hy | right; exact Hyin].
Qed.

Lemma list_field_subscript (k : string) (v : value) (xs : list value) :
  list_field k v = Some xs ->
  subscript v k = Ok (VList xs).
Proof.
  destruct v; simpl; try discriminate.
  destruct (lookup k items) as [[] |]; try discriminate.
  intros H. injection H as <-. reflexivity.
Qed.

Section Walk_conforming.
Context {S : Type}.
Variables (leaf : S -> value -> result S) (step : S -> value -> S).

(** On a message of the right shape the nest of loops runs the
    innermost body on the objects reached, in order. *)
Lemma walk_reach (path : list string) :
  forall (v : value) (vs : list value),
    reach path v = Some vs ->
    (forall s x, In x vs -> leaf s x = Ok (step s x)) ->
    forall s, walk path leaf s v = Ok (fold_left step vs s).
Proof.
  induction path as [| k path IH]; intros v vs Hreach Hleaf s; simpl in *.
  - injection Hreach as <-. simpl. apply Hleaf. left. reflexivity.
  - destruct (list_field k v) as [xs |] eqn:Hk; [| discriminate].
    rewrite (list_field_subscript _ _ _ Hk). simpl.
    destruct (traverse (reach path) xs) as [vss |] eqn:Hxs; [| discriminate].
    injection Hreach as <-.
    clear Hk. revert vss Hxs Hleaf s.
    induction xs as [| x xs IHxs]; simpl; intros vss Hxs Hleaf s.
    + injection Hxs as <-. reflexivity.
    + destruct (reach path x) as [ys |] eqn:Hx; [| discriminate].
      destruct (traverse (reach path) xs) as [yss |]; [| discriminate].
      injection Hxs as <-. simpl in *.
      rewrite (IH x ys Hx) by (intros; apply Hleaf, in_or_app; left; assumption).
      simpl. rewrite fold_left_app.
      apply IHxs; [reflexivity |].
      intros; apply Hleaf, in_or_app; right; assumption.
Qed.
End Walk_conforming.

(** ** Counting *)

Lemma count_leaf_list (k : string) (out : Z) (v : value) (xs : list value) :
  list_field k v = Some xs ->
  count_leaf k out v = Ok (out + field_length k v).
Proof.
  intros H. unfold count_leaf, field_length.
  rewrite (list_field_subscript _ _ _ H), H. reflexivity.
Qed.

Lemma fold_field_length (k : string) (scopes : list value) :
  forall (seqs : list (list value)) (s : Z),
    traverse (list_field k) scopes = Some seqs ->
    fold_left (fun out v => out + field_length k v) scopes s
    = s + sum_lengths seqs.
Proof.
  induction scopes as [| v scopes IH]; simpl; intros seqs s H.
  - injection H as <-. simpl. lia.
  - unfold field_length at 2.
    destruct (list_field k v) as [xs |]; [| discriminate].
    destruct (traverse (list_field k) scopes) as [xss |]; [| discriminate].
    injection H as <-. rewrite (IH xss _ eq_refl). simpl. lia.
Qed.

(** The counting loops, for any three keys. *)
Lemma count_total (k1 k2 k3 : string) (reqs : list Request.t) :
  Forall (conforms [k1; k2; k3]) reqs ->
  forall s,
    over_messages (walk [k1; k2] (count_leaf k3)) reqs s
    = Ok (s + total [k1; k2; k3] reqs).
Proof.
  unfold over_messages.
  induction reqs as [| req reqs IH]; intros Hall s; cbn [for_each].
  - simpl. f_equal. lia.
  - inversion Hall as [| ? ? Hreq Hrest]; subst.
    unfold conforms, leaf_count, innermost in *. simpl removelast in *.
    simpl last in *.
    destruct (reach [k1; k2] (VDict (Request.message req)))
      as [scopes |] eqn:Hreach; [| contradiction].
    destruct (traverse (list_field k3) scopes) as [seqs |] eqn:Hseqs;
      [| contradiction].
    rewrite (walk_reach (count_leaf k3)
               (fun out v => out + field_length k3 v) _ _ _ Hreach).
    + cbn [bind total fold_right].
      rewrite (fold_field_length _ _ _ _ Hseqs), (IH Hrest).
      unfold leaf_count, innermost. simpl removelast. simpl last.
      rewrite Hreach, Hseqs, <- Z.add_assoc. reflexivity.
    + intros out x Hx.
      destruct (traverse_In _ _ _ _ Hseqs Hx) as [xs [Hxs _]].
      exact (count_leaf_list _ _ _ _ Hxs).
Qed.

(** C1. When every metric request conforms to the nested schema,
    [num_metrics] returns the sum, over the metric requests, of the
    lengths of the innermost [metrics] sequences reached through
    [resourceMetrics] and [scopeMetrics]. *)
Theorem num_metrics_sums_innermost_lengths (t : Telemetry.t) :
  Forall (conforms metrics_path) (Telemetry.metric_requests t) ->
  Telemetry.num_metrics t
  = Ok (total metrics_path (Telemetry.metric_requests t)).
Proof.
  intros H. rewrite num_metrics_walk.
  exact (count_total _ _ _ _ H 0).
Qed.

(** One metric request with 2 resourceMetrics x 2 scopeMetrics x 3
    metrics counts 12. *)
Lemma num_metrics_2_2_3 :
  Telemetry.num_metrics
    (Telemetry.add_metric (Telemetry.init None None None)
       (synthetic 2 2 3) [] 0)
  = Ok 12.
Proof.
  apply (num_metrics_sums_innermost_lengths
           (Telemetry.add_metric (Telemetry.init None None None)
              (synthetic 2 2 3) [] 0)).
  repeat constructor. unfold conforms. vm_compute. discriminate.
Defined.

(** ** Names *)

Lemma set_mem_str (name : string) (out : pyset) :
  set_mem (VStr name) out = true <-> In (VStr name) out.
Proof.
  unfold set_mem. rewrite existsb_exists. split.
  - intros [v [Hin Heq]]. apply py_eq_str in Heq. subst. exact Hin.
  - intros Hin. exists (VStr name). split; [exact Hin |].
    apply py_eq_str. reflexivity.
Qed.

Lemma add_leaf_str (out : pyset) (entry : value) (name : string) :
  str_field "name" entry = Some name ->
  add_leaf "name" out entry = Ok (add_entry out entry).
Proof.
  unfold add_leaf, add_entry. intros H. rewrite H.
  destruct entry; simpl in *; try discriminate.
  destruct (lookup "name" items) as [[] |]; try discriminate.
  injection H as ->. reflexivity.
Qed.

Lemma fold_add_entry (entries : list value) :
  forall (names : list string) (out : pyset),
    traverse (str_field "name") entries = Some names ->
    fold_left add_entry entries out = fold_left add_name names out.
Proof.
  induction entries as [| e entries IH]; simpl; intros names out H.
  - injection H as <-. reflexivity.
  - unfold add_entry at 2.
    destruct (str_field "name" e) as [n |]; [| discriminate].
    destruct (traverse (str_field "name") entries) as [ns |]; [| discriminate].
    injection H as <-. simpl. apply IH. reflexivity.
Qed.

Lemma names_fold (reqs : list Request.t) :
  Forall names_conform reqs ->
  forall out,
    over_messages (walk metrics_path (add_leaf "name")) reqs out
    = Ok (fold_left add_name (all_names reqs) out).
Proof.
  unfold over_messages.
  induction reqs as [| req reqs IH]; intros Hall out; cbn [for_each].
  - reflexivity.
  - inversion Hall as [| ? ? Hreq Hrest]; subst.
    unfold names_conform in Hreq.
    cbn [all_names flat_map]. fold (all_names reqs).
    unfold names_of in *.
    destruct (reach metrics_path (VDict (Request.message req)))
      as [entries |] eqn:Hreach; [| contradiction].
    destruct (traverse (str_field "name") entries) as [names |] eqn:Hnames;
      [| contradiction].
    rewrite (walk_reach (add_leaf "name") add_entry _ _ _ Hreach).
    + cbn [bind]. rewrite (fold_add_entry _ _ _ Hnames), fold_left_app.
      apply IH. exact Hrest.
    + intros s x Hx.
      destruct (traverse_In _ _ _ _ Hnames Hx) as [n [Hn _]].
      exact (add_leaf_str _ _ _ Hn).
Qed.

Lemma add_name_In (out : pyset) (name : string) (v : value) :
  In v (add_name out name) <-> In v out \/ v = VStr name.
Proof.
  unfold add_name. destruct (set_mem (VStr name) out) eqn:E.
  - apply set_mem_str in E. split; [tauto |].
    intros [H | ->]; assumption.
  - rewrite in_app_iff. simpl. intuition congruence.
Qed.

Lemma add_name_NoDup (out : pyset) (name : string) :
  NoDup out -> NoDup (add_name out name).
Proof.
  intros H. unfold add_name. destruct (set_mem (VStr name) out) eqn:E.
  - exact H.
  - apply NoDup_app.
    + exact H.
    + repeat constructor. intros [].
    + intros v Hin [<- | []]. apply set_mem_str in Hin. congruence.
Qed.

Lemma fold_add_name_spec (names : list string) :
  forall out,
    NoDup out ->
    NoDup (fold_left add_name names out)
    /\ forall v, In v (fold_left add_name names out)
                 <-> In v out \/ exists s, v = VStr s /\ In s names.
Proof.
  induction names as [| n names IH]; simpl; intros out Hout.
  - split; [exact Hout |]. intros v. split; [tauto |].
    intros [H | [s [_ []]]]. exact H.
  - destruct (IH (add_name out n) (add_name_NoDup _ _ Hout)) as [Hnd Hin].
    split; [exact Hnd |]. intros v. rewrite Hin, add_name_In. split.
    + intros [[H | ->] | [s [-> Hs]]].
      * left. exact H.
      * right. exists n. split; [reflexivity | left; reflexivity].
      * right. exists s. split; [reflexivity | right; exact Hs].
    + intros [H | [s [-> [<- | Hs]]]].
      * left. left. exact H.
      * left. right. reflexivity.
      * right. exists s. split; [reflexivity | exact Hs].
Qed.

(** C3. When every metric request conforms to the nested schema, with a
    string [name] in every metric entry, [metric_names] returns a set
    whose elements are exactly the names of the entries reached by the
    traversal, each of them once. *)
Theorem metric_names_is_the_set_of_names (t : Telemetry.t) :
  Forall names_conform (Telemetry.metric_requests t) ->
  exists out,
    Telemetry.metric_names t = Ok out
    /\ NoDup out
    /\ forall v, In v out
                 <-> exists s, v = VStr s
                               /\ In s (all_names (Telemetry.metric_requests t)).
Proof.
  intros H. rewrite metric_names_walk, (names_fold _ H).
  destruct (fold_add_name_spec (all_names (Telemetry.metric_requests t)) []
              (NoDup_nil _)) as [Hnd Hin].
  eexists. split; [reflexivity |]. split; [exact Hnd |].
  intros v. rewrite Hin. simpl. tauto.
Qed.

Lemma metric_names_two_latency :
  exists out,
    Telemetry.metric_names two_latency = Ok out
    /\ NoDup out
    /\ forall v, In v out
                 <-> exists s, v = VStr s /\ In s ["latency"; "latency"].
Proof.
  apply (metric_names_is_the_set_of_names two_latency).
  repeat constructor; unfold names_conform; vm_compute; discriminate.
Defined.

Example two_latency_one_name :
  Telemetry.metric_names two_latency = Ok [VStr "latency"].
Proof. reflexivity. Qed.

(** ** Malformed messages *)

Lemma count_leaf_missing (k : string) (out : Z) (d : dict) :
  lookup k d = None -> exists e, count_leaf k out (VDict d) = Raise e.
Proof.
  intros H. exists (KeyError k). unfold count_leaf. simpl. rewrite H.
  reflexivity.
Qed.

Lemma add_leaf_missing (k : string) (out : pyset) (d : dict) :
  lookup k d = None -> exists e, add_leaf k out (VDict d) = Raise e.
Proof.
  intros H. exists (KeyError k). unfold add_leaf. simpl. rewrite H.
  reflexivity.
Qed.

Section Walk_malformed.
Context {S : Type}.
Variables (leaf : S -> value -> result S) (last_key : string).
Hypothesis leaf_missing :
  forall s d, lookup last_key d = None ->
              exists e, leaf s (VDict d) = Raise e.

(** A key missing at any level makes the nest of loops raise. *)
Lemma walk_missing_key (path : list string) :
  forall v, missing_key (path ++ [last_key]) v ->
            forall s, exists e, walk path leaf s v = Raise e.
Proof.
  induction path as [| k path IH]; intros v Hv s; simpl in *.
  - inversion Hv as [? ? d Hd | ? ? d xs x _ _ Hx]; subst.
    + apply leaf_missing. exact Hd.
    + inversion Hx.
  - inversion Hv as [? ? d Hd | ? ? d xs x Hd Hin Hx]; subst; simpl.
    + rewrite Hd. exists (KeyError k). reflexivity.
    + rewrite Hd. simpl. apply (for_each_raises _ xs x Hin).
      intros s'. apply IH. exact Hx.
Qed.

Lemma over_messages_malformed (path : list string)
    (reqs : list Request.t) :
  Exists (malformed (path ++ [last_key])) reqs ->
  forall s, exists e, over_messages (walk path leaf) reqs s = Raise e.
Proof.
  intros H s. apply Exists_exists in H. destruct H as [req [Hin Hreq]].
  unfold over_messages. apply (for_each_raises _ reqs req Hin).
  intros s'. apply walk_missing_key. exact Hreq.
Qed.
End Walk_malformed.

(** C5. A metric request with a key missing at a level that
    [num_metrics] or [metric_names] traverses makes that method raise,
    and so does a trace request for [num_spans]: no count or set is
    returned. *)
Theorem malformed_payload_raises (t : Telemetry.t) :
  (Exists (malformed metrics_path) (Telemetry.metric_requests t) ->
   exists e, Telemetry.num_metrics t = Raise e)
  /\ (Exists (malformed (metrics_path ++ ["name"]))
        (Telemetry.metric_requests t) ->
      exists e, Telemetry.metric_names t = Raise e)
  /\ (Exists (malformed spans_path) (Telemetry.trace_requests t) ->
      exists e, Telemetry.num_spans t = Raise e).
Proof.
  split; [| split]; intros H.
  - rewrite num_metrics_walk.
    apply (over_messages_malformed _ "metrics" (count_leaf_missing _)
             ["resourceMetrics"; "scopeMetrics"]).
    exact H.
  - rewrite metric_names_walk.
    apply (over_messages_malformed _ "name" (add_leaf_missing _)
             metrics_path).
    exact H.
  - rewrite num_spans_walk.
    apply (over_messages_malformed _ "spans" (count_leaf_missing _)
             ["resourceSpans"; "scopeSpans"]).
    exact H.
Qed.

Lemma broken_raises :
  (exists e, Telemetry.num_metrics broken = Raise e)
  /\ (exists e, Telemetry.metric_names broken = Raise e)
  /\ (exists e, Telemetry.num_spans broken = Raise e).
Proof.
  destruct (malformed_payload_raises broken) as [Hm [Hn Hs]].
  split; [| split].
  - apply Hm. simpl. apply Exists_cons_tl, Exists_cons_hd.
    eapply missing_below; [reflexivity | left; reflexivity |].
    eapply missing_below; [reflexivity | right; left; reflexivity |].
    apply missing_here. reflexivity.
  - apply Hn. simpl. apply Exists_cons_tl, Exists_cons_hd.
    eapply missing_below; [reflexivity | left; reflexivity |].
    eapply missing_below; [reflexivity | right; left; reflexivity |].
    apply missing_here. reflexivity.
  - apply Hs. simpl. apply Exists_cons_hd. apply missing_here. reflexivity.
Defined.

Example broken_num_metrics :
  Telemetry.num_metrics broken = Raise (KeyError "metrics").
Proof. reflexivity. Qed.

(** A field of the wrong type need not raise: [len] accepts a string. *)
Example str_in_place_of_list :
  Telemetry.num_metrics
    (Telemetry.add_metric (Telemetry.init None None None)
       [("resourceMetrics", VList [VDict [("scopeMetrics",
           VList [VDict [("metrics", VStr "abc")]])]])] [] 0)
  = Ok 3.
Proof. reflexivity. Qed.

(** ** Headers *)

(** The loop finds a request whose header compares equal to
    [expected], and nothing else. *)
Lemma has_header_in_exists (reqs : list Request.t) (key : string)
    (expected : value) :
  Telemetry.has_header_in reqs key expected = true
  <-> exists req, In req reqs
                  /\ py_eq expected (Request.get_header req key) = true.
Proof.
  induction reqs as [| r reqs IH]; simpl.
  - split; [discriminate | intros [req [[] _]]].
  - destruct (py_eq expected (Request.get_header r key)) eqn:E.
    + split; [| reflexivity]. intros _. exists r. split; [left; reflexivity |].
      exact E.
    + rewrite IH. split.
      * intros [req [Hin Heq]]. exists req. split; [right; exact Hin | exact Heq].
      * intros [req [[<- | Hin] Heq]]; [congruence |].
        exists req. split; assumption.
Qed.

Lemma lookup_NoDup (k : string) (d : dict) (v : value) :
  In (k, v) d -> NoDup (keys d) -> lookup k d = Some v.
Proof.
  induction d as [| [k' v'] d IH]; simpl; intros Hin Hnd.
  - contradiction.
  - inversion Hnd as [| ? ? Hk' Hd]; subst.
    destruct Hin as [Heq | Hin].
    + injection Heq as -> ->. rewrite String.eqb_refl. reflexivity.
    + destruct (String.eqb k k') eqn:E.
      * apply String.eqb_eq in E. subst. exfalso. apply Hk'.
        apply (in_map fst) in Hin. exact Hin.
      * exact (IH Hin Hd).
Qed.

(** C8. [get_header] looks the name up as it is written: it returns
    [None] when [name] is not a key of the headers, the value stored
    under [name] when it is one, and a value other than [None] only
    when the headers hold it under exactly [name], character for
    character.  It is a total function: no name makes it raise. *)
Theorem get_header_looks_up_the_name (req : Request.t) (name : string) :
  (~ In name (keys (Request.headers req)) ->
   Request.get_header req name = VNone)
  /\ (forall v, In (name, v) (Request.headers req) ->
                NoDup (keys (Request.headers req)) ->
                Request.get_header req name = v)
  /\ (forall v, Request.get_header req name = v -> v <> VNone ->
                In (name, v) (Request.headers req)).
Proof.
  unfold Request.get_header, dict_get. split; [| split].
  - intros H. apply lookup_None in H. rewrite H. reflexivity.
  - intros v Hin Hnd. rewrite (lookup_NoDup _ _ _ Hin Hnd). reflexivity.
  - intros v Hv Hnone.
    destruct (lookup name (Request.headers req)) as [x |] eqn:E.
    + subst. apply lookup_In. exact E.
    + congruence.
Qed.

(** A header stored as [X-Test] is returned under that name and is not
    found under [x-test]. *)
Lemma get_header_case_sensitive :
  Request.get_header two_headers "x-test" = VNone
  /\ Request.get_header two_headers "X-Test" = VStr "abc"
  /\ Request.get_header two_headers "content-type" = VStr "application/json".
Proof.
  destruct (get_header_looks_up_the_name two_headers "x-test")
    as [Habsent _].
  destruct (get_header_looks_up_the_name two_headers "X-Test")
    as [_ [Hfirst _]].
  destruct (get_header_looks_up_the_name two_headers "content-type")
    as [_ [Hsecond _]].
  assert (Hnd : NoDup (keys (Request.headers two_headers))).
  { simpl. repeat constructor; simpl; intuition discriminate. }
  split; [| split].
  - apply Habsent. simpl. intuition discriminate.
  - apply Hfirst; [left; reflexivity | exact Hnd].
  - apply Hsecond; [right; left; reflexivity | exact Hnd].
Defined.

(** C2. For every key and every expected string, [has_trace_header]
    returns [True] if and only if some trace request's headers map the
    key to exactly that string; it returns [False] when the key is
    absent from every trace request, when every trace request maps it
    to something else, and when there is no trace request. *)
Theorem has_trace_header_iff (t : Telemetry.t) (key expected : string) :
  (Telemetry.has_trace_header t key (VStr expected) = true
   <-> exists req,
         In req (Telemetry.trace_requests t)
         /\ lookup key (Request.headers req) = Some (VStr expected))
  /\ ((forall req, In req (Telemetry.trace_requests t) ->
                   lookup key (Request.headers req) = None) ->
      Telemetry.has_trace_header t key (VStr expected) = false)
  /\ ((forall req actual,
         In req (Telemetry.trace_requests t) ->
         lookup key (Request.headers req) = Some actual ->
         actual <> VStr expected) ->
      Telemetry.has_trace_header t key (VStr expected) = false)
  /\ (Telemetry.trace_requests t = [] ->
      Telemetry.has_trace_header t key (VStr expected) = false).
Proof.
  assert (Hiff : Telemetry.has_trace_header t key (VStr expected) = true
     <-> exists req,
           In req (Telemetry.trace_requests t)
           /\ lookup key (Request.headers req) = Some (VStr expected)).
  { unfold Telemetry.has_trace_header. rewrite has_header_in_exists.
    unfold Request.get_header, dict_get. split.
    - intros [req [Hin Heq]]. exists req. split; [exact Hin |].
      apply py_eq_str in Heq.
      destruct (lookup key (Request.headers req)) as [actual |];
        congruence.
    - intros [req [Hin E]]. exists req. rewrite E. split; [exact Hin |].
      apply py_eq_str. reflexivity. }
  split; [exact Hiff |]. repeat split.
  - intros Habsent. apply not_true_is_false. rewrite Hiff.
    intros [req [Hin E]]. rewrite (Habsent req Hin) in E. discriminate.
  - intros Hother. apply not_true_is_false. rewrite Hiff.
    intros [req [Hin E]]. exact (Hother req _ Hin E eq_refl).
  - intros Hempty. apply not_true_is_false. rewrite Hiff, Hempty.
    intros [req [[] _]].
Qed.

Lemma has_trace_header_abc :
  Telemetry.has_trace_header abc_trace "x-test" (VStr "abc") = true
  /\ Telemetry.has_trace_header abc_trace "x-other" (VStr "abc") = false
  /\ Telemetry.has_trace_header abc_trace "x-test" (VStr "abd") = false
  /\ Telemetry.has_trace_header (Telemetry.init None None None)
       "x-test" (VStr "abc") = false.
Proof.
  destruct (has_trace_header_iff abc_trace "x-test" "abc") as [Hfound _].
  destruct (has_trace_header_iff abc_trace "x-other" "abc")
    as [_ [Habsent _]].
  destruct (has_trace_header_iff abc_trace "x-test" "abd")
    as [_ [_ [Hother _]]].
  destruct (has_trace_header_iff (Telemetry.init None None None)
              "x-test" "abc") as [_ [_ [_ Hempty]]].
  split; [| split; [| split]].
  - apply Hfound. exists (Request.Build [] [("x-test", VStr "abc")] 5).
    split; [right; left; reflexivity | reflexivity].
  - apply Habsent. intros req [<- | [<- | []]]; reflexivity.
  - apply Hother. intros req actual [<- | [<- | []]]; simpl;
      intros H; [discriminate |]. injection H as <-. discriminate.
  - apply Hempty. reflexivity.
Defined.

(** ** Structured form *)









(** An instance of [object] in the message: the structured form is
    there, [to_json] raises. *)
Example to_json_of_an_object :
  Request.to_json (Request.Build [("blob", VObject 0)] [] 0)
  = Raise TypeError.
Proof. reflexivity. Qed.

Lemma request_of_to_dict (req : Request.t) :
  Rebuild.request_of_dict (Request.to_dict req) = Ok req.
Proof. destruct req. reflexivity. Qed.

Lemma map_each_of_to_dict (reqs : list Request.t) :
  map_each Rebuild.request_of_dict (map Request.to_dict reqs) = Ok reqs.
Proof.
  induction reqs as [| req reqs IH]; cbn [map map_each].
  - reflexivity.
  - rewrite request_of_to_dict. cbn [bind]. rewrite IH. reflexivity.
Qed.

Lemma or_empty_Some (reqs : list Request.t) :
  Telemetry.or_empty (Some reqs) = reqs.
Proof. destruct reqs; reflexivity. Qed.

Lemma telemetry_of_to_dict (t : Telemetry.t) :
  Rebuild.telemetry_of_dict (Telemetry.to_dict t) = Ok t.
Proof.
  destruct t as [logs metrics traces].
  unfold Rebuild.telemetry_of_dict, Rebuild.requests_of, Telemetry.to_dict.
  cbn [subscript lookup String.eqb Ascii.eqb Bool.eqb bind iter
       Telemetry.log_requests Telemetry.metric_requests
       Telemetry.trace_requests].
  rewrite !map_each_of_to_dict. cbn [bind].
  unfold Telemetry.init. rewrite !or_empty_Some. reflexivity.
Qed.

(** C4. Rebuilding the records of [to_dict]'s output and constructing a
    collection from them succeeds, and the new collection gives the
    same [num_metrics], [num_spans] and [metric_names] as the first. *)
Theorem round_trip_queries (t : Telemetry.t) :
  exists t',
    Rebuild.telemetry_of_dict (Telemetry.to_dict t) = Ok t'
    /\ Telemetry.num_metrics t' = Telemetry.num_metrics t
    /\ Telemetry.num_spans t' = Telemetry.num_spans t
    /\ Telemetry.metric_names t' = Telemetry.metric_names t.
Proof.
  exists t. split; [apply telemetry_of_to_dict |]. repeat split.
Qed.

(** ** Appending *)

Lemma run_from (cs : list Calls.call) :
  forall t,
    Telemetry.log_requests (fold_left Calls.apply cs t)
    = Telemetry.log_requests t ++ Calls.logs_of cs
    /\ Telemetry.metric_requests (fold_left Calls.apply cs t)
       = Telemetry.metric_requests t ++ Calls.metrics_of cs
    /\ Telemetry.trace_requests (fold_left Calls.apply cs t)
       = Telemetry.trace_requests t ++ Calls.traces_of cs.
Proof.
  induction cs as [| c cs IH]; intros t; simpl.
  - rewrite !app_nil_r. auto.
  - destruct (IH (Calls.apply t c)) as [Hl [Hm Ht]].
    rewrite Hl, Hm, Ht.
    destruct c; simpl; rewrite <- ?app_assoc; auto.
Qed.

(** C6. After any sequence of [add_log], [add_metric] and [add_trace]
    calls on a collection created empty, [get_trace_requests] is the
    list of the records given to [add_trace], in the order of the
    calls, and the log and metric lists are those given to [add_log]
    and [add_metric]. *)
Theorem appended_in_arrival_order (cs : list Calls.call) :
  Telemetry.get_trace_requests (Calls.run cs) = Calls.traces_of cs
  /\ Telemetry.log_requests (Calls.run cs) = Calls.logs_of cs
  /\ Telemetry.metric_requests (Calls.run cs) = Calls.metrics_of cs.
Proof.
  unfold Calls.run, Telemetry.get_trace_requests.
  destruct (run_from cs (Telemetry.init None None None)) as [Hl [Hm Ht]].
  rewrite Hl, Hm, Ht. auto.
Qed.

(** ** The empty collection *)

(** C10. With no metric request and no trace request, [num_metrics] and
    [num_spans] return 0, [metric_names] returns the empty set and
    [has_trace_header] returns [False] for every key and expected
    value; none of them raises. *)
Theorem empty_collection_queries (t : Telemetry.t) :
  Telemetry.metric_requests t = [] ->
  Telemetry.trace_requests t = [] ->
  Telemetry.num_metrics t = Ok 0
  /\ Telemetry.num_spans t = Ok 0
  /\ Telemetry.metric_names t = Ok []
  /\ forall key expected, Telemetry.has_trace_header t key expected = false.
Proof.
  intros Hm Ht.
  unfold Telemetry.num_metrics, Telemetry.num_spans, Telemetry.metric_names,
    Telemetry.has_trace_header.
  rewrite Hm, Ht. simpl. auto.
Qed.

Lemma fresh_collection_queries :
  Telemetry.num_metrics (Telemetry.init None None None) = Ok 0
  /\ Telemetry.num_spans (Telemetry.init None None None) = Ok 0
  /\ Telemetry.metric_names (Telemetry.init None None None) = Ok []
  /\ forall key expected,
       Telemetry.has_trace_header (Telemetry.init None None None)
         key expected = false.
Proof.
  apply (empty_collection_queries (Telemetry.init None None None));
    reflexivity.
Defined.


(** * Further properties of the module *)

(** ** Loops, continued *)

Section More_loops.
Context {A S : Type}.
Variable body : S -> A -> result S.

Lemma for_each_app (xs ys : list A) (s : S) :
  for_each body (xs ++ ys) s
  = (s' <- for_each body xs s ;; for_each body ys s').
Proof.
  revert s. induction xs as [| x xs IH]; intros s; cbn [for_each app bind].
  - reflexivity.
  - destruct (body s x); cbn [bind]; [apply IH | reflexivity].
Qed.

Variable P : S -> Prop.
Hypothesis body_keeps :
  forall s x s', P s -> body s x = Ok s' -> P s'.

(** What every body keeps, the loop keeps. *)
Lemma for_each_keeps (xs : list A) :
  forall s s', P s -> for_each body xs s = Ok s' -> P s'.
Proof.
  induction xs as [| x xs IH]; intros s s' Hs H; cbn [for_each] in H.
  - injection H as <-. exact Hs.
  - destruct (body s x) as [s1 |] eqn:E; cbn [bind] in H; [| discriminate].
    exact (IH s1 s' (body_keeps _ _ _ Hs E) H).
Qed.
End More_loops.

Section Walk_keeps.
Context {S : Type}.
Variables (leaf : S -> value -> result S) (P : S -> Prop).
Hypothesis leaf_keeps :
  forall s x s', P s -> leaf s x = Ok s' -> P s'.

Lemma walk_keeps (path : list string) :
  forall v s s', P s -> walk path leaf s v = Ok s' -> P s'.
Proof.
  induction path as [| k path IH]; intros v s s' Hs H; cbn [walk] in H.
  - exact (leaf_keeps _ _ _ Hs H).
  - destruct (subscript v k) as [xs |]; cbn [bind] in H; [| discriminate].
    destruct (iter xs) as [items |]; cbn [bind] in H; [| discriminate].
    exact (for_each_keeps _ P (fun s0 x s1 => IH x s0 s1) items s s' Hs H).
Qed.

Lemma over_messages_keeps (path : list string) (reqs : list Request.t) :
  forall s s', P s -> over_messages (walk path leaf) reqs s = Ok s' -> P s'.
Proof.
  unfold over_messages. apply for_each_keeps.
  intros s req s'. apply walk_keeps.
Qed.
End Walk_keeps.

(** ** Counting, continued *)

(** X1. Trace requests of the shape of the schema: [num_spans] returns the
    sum of the lengths of the innermost [spans] sequences. *)
Theorem num_spans_sums_innermost_lengths (t : Telemetry.t) :
  Forall (conforms spans_path) (Telemetry.trace_requests t) ->
  Telemetry.num_spans t
  = Ok (total spans_path (Telemetry.trace_requests t)).
Proof.
  intros H. rewrite num_spans_walk. exact (count_total _ _ _ _ H 0).
Qed.

Lemma num_spans_three_traces : Telemetry.num_spans three_traces = Ok 7.
Proof.
  apply (num_spans_sums_innermost_lengths three_traces).
  repeat constructor; unfold conforms; vm_compute; discriminate.
Defined.

Lemma len_not_negative (v : value) (n : Z) : len v = Ok n -> 0 <= n.
Proof.
  destruct v; simpl; intros H; try discriminate; injection H as <-; lia.
Qed.

Lemma count_leaf_keeps_sign (k : string) (out : Z) (v : value) (out' : Z) :
  0 <= out -> count_leaf k out v = Ok out' -> 0 <= out'.
Proof.
  unfold count_leaf. intros Hout H.
  destruct (subscript v k) as [xs |]; cbn [bind] in H; [| discriminate].
  destruct (len xs) as [n |] eqn:E; cbn [bind] in H; [| discriminate].
  injection H as <-. apply len_not_negative in E. lia.
Qed.

(** X2. Whatever the messages hold, a count that [num_metrics] or
    [num_spans] returns is not negative. *)
Theorem counts_are_not_negative (t : Telemetry.t) (n : Z) :
  Telemetry.num_metrics t = Ok n \/ Telemetry.num_spans t = Ok n ->
  0 <= n.
Proof.
  rewrite num_metrics_walk, num_spans_walk. intros [H | H].
  - exact (over_messages_keeps (count_leaf "metrics") (fun out => 0 <= out)
             (count_leaf_keeps_sign "metrics") _ _ 0 n (Z.le_refl 0) H).
  - exact (over_messages_keeps (count_leaf "spans") (fun out => 0 <= out)
             (count_leaf_keeps_sign "spans") _ _ 0 n (Z.le_refl 0) H).
Qed.

Lemma count_of_three_traces_not_negative :
  Telemetry.num_spans three_traces = Ok 7 /\ 0 <= 7.
Proof.
  split; [reflexivity |].
  apply (counts_are_not_negative three_traces 7). right. reflexivity.
Defined.

(** X3. Appending a metric request of the shape of the schema to a
    collection that [num_metrics] counts adds the lengths of its
    innermost sequences to the count. *)
Theorem add_metric_adds_its_leaves (t : Telemetry.t) (metric headers : dict)
    (test_elapsed_ms n : Z) :
  Telemetry.num_metrics t = Ok n ->
  conforms metrics_path (Request.Build metric headers test_elapsed_ms) ->
  Telemetry.num_metrics (Telemetry.add_metric t metric headers test_elapsed_ms)
  = Ok (n + leaf_count metrics_path
              (Request.Build metric headers test_elapsed_ms)).
Proof.
  rewrite !num_metrics_walk. unfold over_messages. intros Hn Hreq.
  cbn [Telemetry.add_metric Telemetry.metric_requests].
  rewrite for_each_app, Hn. cbn [bind].
  fold (over_messages (walk ["resourceMetrics"; "scopeMetrics"]
                         (count_leaf "metrics"))
          [Request.Build metric headers test_elapsed_ms] n).
  rewrite (count_total "resourceMetrics" "scopeMetrics" "metrics"
             [Request.Build metric headers test_elapsed_ms]
             (Forall_cons _ Hreq (Forall_nil _)) n).
  cbn [total fold_right]. rewrite Z.add_0_r. reflexivity.
Qed.

Lemma add_metric_to_two_latency :
  Telemetry.num_metrics
    (Telemetry.add_metric two_latency (synthetic 2 1 3) [] 9)
  = Ok 8.
Proof.
  apply (add_metric_adds_its_leaves two_latency (synthetic 2 1 3) [] 9 2).
  - reflexivity.
  - unfold conforms. vm_compute. discriminate.
Defined.

(** ** Appending, continued *)

Lemma for_each_app_raise {A S : Type} (body : S -> A -> result S)
    (xs ys : list A) (s : S) (e : exn) :
  for_each body xs s = Raise e -> for_each body (xs ++ ys) s = Raise e.
Proof. intros H. rewrite for_each_app, H. reflexivity. Qed.

(** X4. Once a query raises, it raises the same exception after any
    further appends: the requests are visited in arrival order and the
    first failure ends the traversal. *)
Theorem raise_survives_appends (t : Telemetry.t) (cs : list Calls.call)
    (e : exn) :
  (Telemetry.num_metrics t = Raise e ->
   Telemetry.num_metrics (fold_left Calls.apply cs t) = Raise e)
  /\ (Telemetry.metric_names t = Raise e ->
      Telemetry.metric_names (fold_left Calls.apply cs t) = Raise e)
  /\ (Telemetry.num_spans t = Raise e ->
      Telemetry.num_spans (fold_left Calls.apply cs t) = Raise e).
Proof.
  destruct (run_from cs t) as [_ [Hm Ht]].
  unfold Telemetry.num_metrics, Telemetry.metric_names, Telemetry.num_spans.
  rewrite Hm, Ht.
  split; [| split]; intros H; apply for_each_app_raise; exact H.
Qed.

Lemma broken_stays_broken :
  Telemetry.num_metrics
    (fold_left Calls.apply
       [Calls.AddMetric (synthetic 1 1 1) [] 3; Calls.AddLog [] [] 4] broken)
  = Raise (KeyError "metrics").
Proof.
  apply (raise_survives_appends broken
           [Calls.AddMetric (synthetic 1 1 1) [] 3; Calls.AddLog [] [] 4]
           (KeyError "metrics")).
  reflexivity.
Defined.

(** X5. Building a collection call by call gives the collection that
    [__init__] builds from the three lists of records. *)
Theorem run_is_preseeded (cs : list Calls.call) :
  Calls.run cs
  = Telemetry.init (Some (Calls.logs_of cs)) (Some (Calls.metrics_of cs))
      (Some (Calls.traces_of cs)).
Proof.
  unfold Calls.run.
  destruct (run_from cs (Telemetry.init None None None)) as [Hl [Hm Ht]].
  destruct (fold_left Calls.apply cs (Telemetry.init None None None))
    as [logs metrics traces].
  simpl in Hl, Hm, Ht. subst.
  unfold Telemetry.init. rewrite !or_empty_Some. reflexivity.
Qed.

(** ** Headers, continued *)

Lemma has_header_in_app (xs ys : list Request.t) (key : string)
    (expected : value) :
  Telemetry.has_header_in (xs ++ ys) key expected
  = Telemetry.has_header_in xs key expected
    || Telemetry.has_header_in ys key expected.
Proof.
  induction xs as [| x xs IH]; simpl.
  - reflexivity.
  - destruct (py_eq expected (Request.get_header x key)); [reflexivity | apply IH].
Qed.

(** X6. After [add_trace], [has_trace_header] answers as before, or [True]
    when the new headers give a value equal to the expected one. *)
Theorem has_trace_header_add_trace (t : Telemetry.t) (trace headers : dict)
    (test_elapsed_ms : Z) (key : string) (expected : value) :
  Telemetry.has_trace_header
    (Telemetry.add_trace t trace headers test_elapsed_ms) key expected
  = Telemetry.has_trace_header t key expected
    || py_eq expected (dict_get headers key).
Proof.
  unfold Telemetry.has_trace_header.
  cbn [Telemetry.add_trace Telemetry.trace_requests].
  rewrite has_header_in_app. cbn [Telemetry.has_header_in].
  unfold Request.get_header. cbn [Request.headers].
  destruct (py_eq expected (dict_get headers key)); reflexivity.
Qed.

(** X7. A header that was found is found after any further appends. *)
Theorem has_trace_header_survives_appends (t : Telemetry.t)
    (cs : list Calls.call) (key : string) (expected : value) :
  Telemetry.has_trace_header t key expected = true ->
  Telemetry.has_trace_header (fold_left Calls.apply cs t) key expected = true.
Proof.
  destruct (run_from cs t) as [_ [_ Ht]].
  unfold Telemetry.has_trace_header. rewrite Ht, has_header_in_app.
  intros ->. reflexivity.
Qed.

Lemma abc_header_survives :
  Telemetry.has_trace_header
    (fold_left Calls.apply
       [Calls.AddTrace [] [("x-test", VStr "other")] 6; Calls.AddLog [] [] 7]
       abc_trace)
    "x-test" (VStr "abc")
  = true.
Proof.
  apply (has_trace_header_survives_appends abc_trace). reflexivity.
Defined.

Lemma py_eq_None_l (v : value) : py_eq VNone v = true <-> v = VNone.
Proof. destruct v; simpl; split; try discriminate; congruence. Qed.

(** X8. With [None] as the expected value, [has_trace_header] returns
    [True] exactly when some trace request lacks the key or maps it to
    [None]. *)
Theorem has_trace_header_expecting_None (t : Telemetry.t) (key : string) :
  Telemetry.has_trace_header t key VNone = true
  <-> exists req,
        In req (Telemetry.trace_requests t)
        /\ (lookup key (Request.headers req) = None
            \/ lookup key (Request.headers req) = Some VNone).
Proof.
  unfold Telemetry.has_trace_header. rewrite has_header_in_exists.
  unfold Request.get_header, dict_get.
  split; intros [req [Hin H]]; exists req; (split; [exact Hin |]).
  - destruct (lookup key (Request.headers req)) as [v |]; [| left; reflexivity].
    apply py_eq_None_l in H. subst. right. reflexivity.
  - destruct H as [-> | ->]; reflexivity.
Qed.

(** ** Structured form, continued *)

Lemma request_to_dict_inj (r r' : Request.t) :
  Request.to_dict r = Request.to_dict r' -> r = r'.
Proof.
  destruct r, r'. unfold Request.to_dict. simpl. intros H.
  injection H as -> -> ->. reflexivity.
Qed.

Lemma map_to_dict_inj (rs rs' : list Request.t) :
  map Request.to_dict rs = map Request.to_dict rs' -> rs = rs'.
Proof.
  revert rs'. induction rs as [| r rs IH]; intros [| r' rs'] H;
    try discriminate; [reflexivity |].
  cbn [map] in H.
  assert (Hr : Request.to_dict r = Request.to_dict r') by congruence.
  assert (Hrs : map Request.to_dict rs = map Request.to_dict rs')
    by congruence.
  f_equal; [exact (request_to_dict_inj _ _ Hr) | exact (IH _ Hrs)].
Qed.

(** X9. The structured form loses nothing: two collections with the same
    [to_dict] hold the same records in the same lists. *)
Theorem to_dict_determines_collection (t t' : Telemetry.t) :
  Telemetry.to_dict t = Telemetry.to_dict t' -> t = t'.
Proof.
  destruct t, t'. unfold Telemetry.to_dict. simpl. intros H.
  injection H as Hl Hm Ht.
  apply map_to_dict_inj in Hl, Hm, Ht. subst. reflexivity.
Qed.

Lemma to_dict_determines_three_traces :
  Calls.run [Calls.AddTrace (synthetic_spans 1 2 2) [] 0;
             Calls.AddTrace (synthetic_spans 3 1 1) [("x-test", VStr "abc")] 4]
  = three_traces.
Proof.
  apply to_dict_determines_collection. reflexivity.
Defined.

(** ** Names, continued *)

Lemma py_eq_refl_hashable (v : value) : hashable v = true -> py_eq v v = true.
Proof.
  destruct v; simpl; intros H; try discriminate.
  - reflexivity.
  - apply Bool.eqb_reflx.
  - apply Z.eqb_refl.
  - apply String.eqb_refl.
  - apply Nat.eqb_refl.
Qed.

Lemma set_mem_false (v : value) (out : pyset) :
  set_mem v out = false -> Forall (fun a => py_eq v a = false) out.
Proof.
  unfold set_mem. induction out as [| a out IH]; simpl; intros H.
  - constructor.
  - apply orb_false_iff in H. destruct H as [Ha Hout].
    constructor; [exact Ha | exact (IH Hout)].
Qed.

Lemma ForallOrdPairs_snoc {A : Type} (R : A -> A -> Prop) (l : list A)
    (v : A) :
  ForallOrdPairs R l -> Forall (fun a => R a v) l ->
  ForallOrdPairs R (l ++ [v]).
Proof.
  induction 1 as [| a l Ha Hl IH]; intros Hv; simpl.
  - repeat constructor.
  - inversion Hv as [| ? ? Hav Hlv]; subst. constructor.
    + apply Forall_app. split; [exact Ha | repeat constructor; exact Hav].
    + exact (IH Hlv).
Qed.

Lemma set_add_is_set (out : pyset) (v : value) (out' : pyset) :
  is_set out -> set_add out v = Ok out' -> is_set out'.
Proof.
  unfold set_add, is_set. intros [Hh Hd] H.
  destruct (hashable v) eqn:Hv; [| discriminate].
  injection H as <-. destruct (set_mem v out) eqn:Hmem.
  - split; assumption.
  - split.
    + apply Forall_app. split; [exact Hh | repeat constructor; exact Hv].
    + apply ForallOrdPairs_snoc; [exact Hd | exact (set_mem_false _ _ Hmem)].
Qed.

Lemma add_leaf_is_set (k : string) (out : pyset) (x : value) (out' : pyset) :
  is_set out -> add_leaf k out x = Ok out' -> is_set out'.
Proof.
  unfold add_leaf. intros Hout H.
  destruct (subscript x k) as [name |]; cbn [bind] in H; [| discriminate].
  exact (set_add_is_set _ _ _ Hout H).
Qed.

Lemma is_set_NoDup (out : pyset) : is_set out -> NoDup out.
Proof.
  unfold is_set. intros [Hh Hd]. induction Hd as [| a l Ha Hl IH].
  - constructor.
  - inversion Hh as [| ? ? Hha Hhl]; subst. constructor; [| exact (IH Hhl)].
    intros Hin. rewrite Forall_forall in Ha. specialize (Ha a Hin).
    simpl in Ha. rewrite (py_eq_refl_hashable a Hha) in Ha. discriminate.
Qed.

(** X10. Whatever the messages hold, a result of [metric_names] is a set:
    its elements are hashable, no two of them compare equal, and none
    occurs twice. *)
Theorem metric_names_returns_a_set (t : Telemetry.t) (out : pyset) :
  Telemetry.metric_names t = Ok out ->
  Forall (fun v => hashable v = true) out
  /\ ForallOrdPairs (fun a b => py_eq b a = false) out
  /\ NoDup out.
Proof.
  rewrite metric_names_walk. intros H.
  assert (Hset : is_set out).
  { refine (over_messages_keeps (add_leaf "name") is_set
              (add_leaf_is_set "name") _ _ [] out _ H).
    split; constructor. }
  destruct Hset as [Hh Hd]. repeat split; try assumption.
  apply is_set_NoDup. split; assumption.
Qed.

Lemma two_latency_names_are_a_set :
  Forall (fun v => hashable v = true) [VStr "latency"]
  /\ ForallOrdPairs (fun a b => py_eq b a = false) [VStr "latency"]
  /\ NoDup [VStr "latency"].
Proof.
  apply (metric_names_returns_a_set two_latency). reflexivity.
Defined.

Lemma set_add_incl (base out : pyset) (v : value) (out' : pyset) :
  incl base out -> set_add out v = Ok out' -> incl base out'.
Proof.
  unfold set_add. intros Hb H.
  destruct (hashable v); [| discriminate]. injection H as <-.
  destruct (set_mem v out); [exact Hb |].
  apply incl_appl. exact Hb.
Qed.

Lemma add_leaf_incl (k : string) (base out : pyset) (x : value)
    (out' : pyset) :
  incl base out -> add_leaf k out x = Ok out' -> incl base out'.
Proof.
  unfold add_leaf. intros Hb H.
  destruct (subscript x k) as [name |]; cbn [bind] in H; [| discriminate].
  exact (set_add_incl _ _ _ _ Hb H).
Qed.

(** X11. Appending a metric request removes no name: what [metric_names]
    returned before is contained in what it returns after. *)
Theorem add_metric_keeps_names (t : Telemetry.t) (metric headers : dict)
    (test_elapsed_ms : Z) (out out' : pyset) :
  Telemetry.metric_names t = Ok out ->
  Telemetry.metric_names
    (Telemetry.add_metric t metric headers test_elapsed_ms) = Ok out' ->
  incl out out'.
Proof.
  rewrite !metric_names_walk. unfold over_messages.
  cbn [Telemetry.add_metric Telemetry.metric_requests].
  rewrite for_each_app. intros -> H. cbn [bind] in H.
  apply (over_messages_keeps (add_leaf "name") (incl out)
           (add_leaf_incl "name" out) metrics_path
           [Request.Build metric headers test_elapsed_ms] out out');
    [apply incl_refl | exact H].
Qed.

Lemma two_latency_keeps_latency :
  incl [VStr "latency"] [VStr "latency"; VStr "errors"].
Proof.
  apply (add_metric_keeps_names two_latency (named_once "errors") [] 2);
    reflexivity.
Defined.

(** ** Entries that cannot be named *)

Lemma traverse_In_inv {A B : Type} (f : A -> option B) (xs : list A)
    (ys : list B) (y : B) :
  traverse f xs = Some ys -> In y ys -> exists x, In x xs /\ f x = Some y.
Proof.
  revert ys. induction xs as [| a xs IH]; simpl; intros ys H Hin.
  - injection H as <-. contradiction.
  - destruct (f a) as [b |] eqn:Ha; [| discriminate].
    destruct (traverse f xs) as [bs |]; [| discriminate].
    injection H as <-. destruct Hin as [<- | Hin].
    + exists a. split; [left; reflexivity | exact Ha].
    + destruct (IH bs eq_refl Hin) as [x [Hx Hfx]].
      exists x. split; [right; exact Hx | exact Hfx].
Qed.

Section Walk_leaf_raises.
Context {S : Type}.
Variable leaf : S -> value -> result S.

(** On a message of the right shape, an object on which the innermost
    body raises makes the nest of loops raise. *)
Lemma walk_leaf_raises (path : list string) :
  forall (v : value) (vs : list value) (x : value),
    reach path v = Some vs ->
    In x vs ->
    (forall s, exists e, leaf s x = Raise e) ->
    forall s, exists e, walk path leaf s v = Raise e.
Proof.
  induction path as [| k path IH]; intros v vs x Hreach Hin Hx s;
    cbn [reach walk] in *.
  - injection Hreach as <-. destruct Hin as [<- | []]. apply Hx.
  - destruct (list_field k v) as [xs |] eqn:Hk; [| discriminate].
    rewrite (list_field_subscript _ _ _ Hk). cbn [bind iter].
    destruct (traverse (reach path) xs) as [vss |] eqn:Hxs; [| discriminate].
    injection Hreach as <-. apply in_concat in Hin.
    destruct Hin as [vs' [Hvs' Hin]].
    destruct (traverse_In_inv _ _ _ _ Hxs Hvs') as [x' [Hx' Hreach']].
    apply (for_each_raises _ xs x' Hx').
    intros s'. exact (IH x' vs' x Hreach' Hin Hx s').
Qed.
End Walk_leaf_raises.

Lemma add_leaf_named (out : pyset) (x : value) :
  named x = true -> add_leaf "name" out x = Ok (add_named out x).
Proof.
  unfold named, add_named, add_leaf. intros H.
  destruct x; try discriminate. cbn [subscript].
  destruct (lookup "name" items) as [name |]; [| discriminate].
  cbn [bind]. unfold set_add. rewrite H. reflexivity.
Qed.

Lemma add_leaf_unnamed (x : value) :
  named x = false -> forall out, exists e, add_leaf "name" out x = Raise e.
Proof.
  unfold named, add_leaf. intros H out.
  destruct x; try (exists TypeError; reflexivity). cbn [subscript].
  destruct (lookup "name" items) as [name |].
  - cbn [bind]. unfold set_add. rewrite H. exists TypeError. reflexivity.
  - exists (KeyError "name"). reflexivity.
Qed.

Lemma forallb_false_In {A : Type} (f : A -> bool) (xs : list A) :
  forallb f xs = false -> exists x, In x xs /\ f x = false.
Proof.
  induction xs as [| a xs IH]; simpl; intros H.
  - discriminate.
  - destruct (f a) eqn:Ha.
    + destruct (IH H) as [x [Hx Hfx]]. exists x. split; [right |]; assumption.
    + exists a. split; [left; reflexivity | exact Ha].
Qed.

(** With named entries everywhere, [metric_names] is a fold of
    [s.add] over the entries, in the order of the traversal. *)
Lemma named_fold (reqs : list Request.t) :
  Forall well_nested reqs ->
  Forall (fun req => forallb named (entries_of req) = true) reqs ->
  forall out,
    over_messages (walk metrics_path (add_leaf "name")) reqs out
    = Ok (fold_left add_named (flat_map entries_of reqs) out).
Proof.
  unfold over_messages.
  induction reqs as [| req reqs IH]; intros Hnest Hnamed out; cbn [for_each].
  - reflexivity.
  - inversion Hnest as [| ? ? Hreq Hrest]; subst.
    inversion Hnamed as [| ? ? Hreq' Hrest']; subst.
    cbn [flat_map]. unfold well_nested, entries_of in *.
    destruct (reach metrics_path (VDict (Request.message req)))
      as [entries |] eqn:Hreach; [| contradiction].
    rewrite (walk_reach (add_leaf "name") add_named _ _ _ Hreach).
    + cbn [bind]. rewrite fold_left_app. apply IH; assumption.
    + intros s x Hx. apply add_leaf_named.
      rewrite forallb_forall in Hreq'. exact (Hreq' x Hx).
Qed.

Lemma returns_named (reqs : list Request.t) :
  Forall well_nested reqs ->
  forall out out',
    over_messages (walk metrics_path (add_leaf "name")) reqs out = Ok out' ->
    Forall (fun req => forallb named (entries_of req) = true) reqs.
Proof.
  unfold over_messages.
  induction reqs as [| req reqs IH]; intros Hnest out out' H.
  - constructor.
  - inversion Hnest as [| ? ? Hreq Hrest]; subst. cbn [for_each] in H.
    destruct (walk metrics_path (add_leaf "name") out
                (VDict (Request.message req))) as [out1 |] eqn:E;
      cbn [bind] in H; [| discriminate].
    constructor; [| exact (IH Hrest out1 out' H)].
    destruct (forallb named (entries_of req)) eqn:Hall; [reflexivity |].
    apply forallb_false_In in Hall. destruct Hall as [x [Hx Hnamed]].
    unfold well_nested, entries_of in *.
    destruct (reach metrics_path (VDict (Request.message req)))
      as [entries |] eqn:Hreach; [| contradiction].
    destruct (walk_leaf_raises (add_leaf "name") _ _ _ x Hreach Hx
                (add_leaf_unnamed x Hnamed) out) as [e He].
    congruence.
Qed.

(** X12. On metric requests nested as the schema asks, [metric_names]
    returns if and only if every metric entry is a dict with a hashable
    [name]; otherwise it raises. *)
Theorem metric_names_returns_iff_named (t : Telemetry.t) :
  Forall well_nested (Telemetry.metric_requests t) ->
  (exists out, Telemetry.metric_names t = Ok out)
  <-> Forall (fun req => forallb named (entries_of req) = true)
        (Telemetry.metric_requests t).
Proof.
  intros Hnest. rewrite metric_names_walk. split.
  - intros [out H]. exact (returns_named _ Hnest [] out H).
  - intros Hnamed. eexists. exact (named_fold _ Hnest Hnamed []).
Qed.

Lemma list_named_raises :
  ~ exists out,
      Telemetry.metric_names
        (Telemetry.add_metric two_latency list_named [] 3) = Ok out.
Proof.
  intros H.
  apply (metric_names_returns_iff_named
           (Telemetry.add_metric two_latency list_named [] 3)) in H.
  - inversion H as [| ? ? _ H1]; subst. inversion H1 as [| ? ? _ H2]; subst.
    inversion H2 as [| ? ? H3 _]; subst. discriminate.
  - repeat constructor; unfold well_nested; vm_compute; discriminate.
Defined.

(** ** Names and counts *)

Lemma traverse_app {A B : Type} (f : A -> option B) (xs xs' : list A)
    (ys ys' : list B) :
  traverse f xs = Some ys -> traverse f xs' = Some ys' ->
  traverse f (xs ++ xs') = Some (ys ++ ys').
Proof.
  revert ys. induction xs as [| a xs IH]; simpl; intros ys H H'.
  - injection H as <-. exact H'.
  - destruct (f a) as [b |]; [| discriminate].
    destruct (traverse f xs) as [bs |]; [| discriminate].
    injection H as <-. rewrite (IH bs eq_refl H'). reflexivity.
Qed.

Lemma traverse_reach_nil (xs : list value) :
  traverse (reach []) xs = Some (map (fun x => [x]) xs).
Proof.
  induction xs as [| x xs IH]; cbn [traverse map]; [| rewrite IH]; reflexivity.
Qed.

Lemma concat_singletons {A : Type} (xs : list A) :
  List.concat (map (fun x => [x]) xs) = xs.
Proof.
  induction xs as [| x xs IH]; simpl; [| rewrite IH]; reflexivity.
Qed.

Lemma reach_cons (k : string) (path : list string) (v : value) :
  reach (k :: path) v
  = match list_field k v with
    | Some xs => option_map (@List.concat value) (traverse (reach path) xs)
    | None => None
    end.
Proof. reflexivity. Qed.

(** Descending through one more key: the objects reached are the items
    of the innermost sequences, one after the other. *)
Lemma reach_last (path : list string) (k : string) :
  forall (v : value) (es : list value),
    reach (path ++ [k]) v = Some es ->
    exists scopes seqs,
      reach path v = Some scopes
      /\ traverse (list_field k) scopes = Some seqs
      /\ List.concat seqs = es.
Proof.
  induction path as [| k' path IH]; intros v es H; cbn [app] in H;
    rewrite reach_cons in H.
  - destruct (list_field k v) as [xs |] eqn:Hk; [| discriminate].
    rewrite traverse_reach_nil in H. cbn [option_map] in H.
    rewrite concat_singletons in H. injection H as <-.
    exists [v], [xs]. cbn [reach traverse]. rewrite Hk.
    repeat split. simpl. apply app_nil_r.
  - rewrite reach_cons. destruct (list_field k' v) as [xs |]; [| discriminate].
    destruct (traverse (reach (path ++ [k])) xs) as [ess |] eqn:Hxs;
      [| discriminate].
    injection H as <-.
    assert (Hin : exists scopess seqs,
               traverse (reach path) xs = Some scopess
               /\ traverse (list_field k) (List.concat scopess) = Some seqs
               /\ List.concat seqs = List.concat ess).
    { clear v. revert ess Hxs.
      induction xs as [| x xs IHxs]; cbn [traverse]; intros ess Hxs.
      - injection Hxs as <-. exists [], []. repeat split.
      - destruct (reach (path ++ [k]) x) as [es |] eqn:Hx; [| discriminate].
        destruct (traverse (reach (path ++ [k])) xs) as [ess' |];
          [| discriminate].
        injection Hxs as <-.
        destruct (IH x es Hx) as [scopes [seqs [Hs [Hq Hc]]]].
        destruct (IHxs ess' eq_refl) as [scopess [seqs' [Hs' [Hq' Hc']]]].
        exists (scopes :: scopess), (seqs ++ seqs').
        rewrite Hs, Hs'. repeat split.
        + cbn [List.concat]. exact (traverse_app _ _ _ _ _ Hq Hq').
        + rewrite concat_app, Hc, Hc'. reflexivity. }
    destruct Hin as [scopess [seqs [Hs [Hq Hc]]]].
    exists (List.concat scopess), seqs. rewrite Hs. repeat split; assumption.
Qed.

Lemma sum_lengths_concat (seqs : list (list value)) :
  sum_lengths seqs = Z.of_nat (List.length (List.concat seqs)).
Proof.
  induction seqs as [| xs seqs IH]; simpl.
  - reflexivity.
  - rewrite length_app, IH. lia.
Qed.

Lemma well_nested_conforms (req : Request.t) :
  well_nested req ->
  conforms metrics_path req
  /\ leaf_count metrics_path req = Z.of_nat (List.length (entries_of req)).
Proof.
  unfold well_nested, conforms, leaf_count, entries_of, innermost.
  intros H.
  destruct (reach metrics_path (VDict (Request.message req)))
    as [es |] eqn:Hreach; [| contradiction].
  destruct (reach_last ["resourceMetrics"; "scopeMetrics"] "metrics" _ _ Hreach)
    as [scopes [seqs [Hs [Hq Hc]]]].
  cbn [metrics_path removelast last]. rewrite Hs, Hq. split.
  - discriminate.
  - rewrite sum_lengths_concat, Hc. reflexivity.
Qed.

Lemma total_entries (reqs : list Request.t) :
  Forall well_nested reqs ->
  Forall (conforms metrics_path) reqs
  /\ total metrics_path reqs
     = Z.of_nat (List.length (flat_map entries_of reqs)).
Proof.
  induction 1 as [| req reqs Hreq _ [IHc IHt]]; cbn [total fold_right flat_map].
  - split; [constructor | reflexivity].
  - destruct (well_nested_conforms req Hreq) as [Hc Hl]. split.
    + constructor; assumption.
    + fold (total metrics_path reqs). rewrite Hl, IHt, length_app. lia.
Qed.

Lemma length_add_named (out : pyset) (x : value) :
  (List.length (add_named out x) <= S (List.length out))%nat.
Proof.
  unfold add_named, add_leaf.
  destruct (subscript x "name") as [name |]; cbn [bind]; [| lia].
  unfold set_add. destruct (hashable name); [| lia].
  destruct (set_mem name out); [lia |]. rewrite length_app. simpl. lia.
Qed.

Lemma length_fold_add_named (entries : list value) :
  forall out,
    (List.length (fold_left add_named entries out)
     <= List.length out + List.length entries)%nat.
Proof.
  induction entries as [| x entries IH]; intros out; simpl.
  - lia.
  - specialize (IH (add_named out x)).
    pose proof (length_add_named out x). lia.
Qed.

(** X13. On metric requests nested as the schema asks, a set that
    [metric_names] returns has at most as many elements as
    [num_metrics] counts, and [num_metrics] does return. *)
Theorem names_at_most_num_metrics (t : Telemetry.t) (out : pyset) :
  Forall well_nested (Telemetry.metric_requests t) ->
  Telemetry.metric_names t = Ok out ->
  exists n,
    Telemetry.num_metrics t = Ok n /\ Z.of_nat (List.length out) <= n.
Proof.
  intros Hnest H. rewrite metric_names_walk in H.
  pose proof (returns_named _ Hnest [] out H) as Hnamed.
  rewrite (named_fold _ Hnest Hnamed []) in H. injection H as <-.
  destruct (total_entries _ Hnest) as [Hc Ht].
  exists (total metrics_path (Telemetry.metric_requests t)). split.
  - rewrite num_metrics_walk. exact (count_total _ _ _ _ Hc 0).
  - rewrite Ht.
    pose proof (length_fold_add_named
                  (flat_map entries_of (Telemetry.metric_requests t)) []).
    simpl in *. lia.
Qed.

Lemma two_latency_names_at_most_count :
  exists n,
    Telemetry.num_metrics two_latency = Ok n
    /\ Z.of_nat (List.length [VStr "latency"]) <= n.
Proof.
  apply (names_at_most_num_metrics two_latency).
  - repeat constructor; unfold well_nested; vm_compute; discriminate.
  - reflexivity.
Defined.

(** ** A [resourceMetrics] field of another type *)

Lemma breaks_loop_iter (v : value) :
  breaks_loop v = true ->
  (exists e, iter v = Raise e)
  \/ (exists s rest, iter v = Ok (VStr s :: rest)).
Proof.
  destruct v as [| b | n | s | xs | d | id]; simpl; intros H;
    try (left; exists TypeError; reflexivity); try discriminate.
  - destruct s as [| c s]; [discriminate |].
    right. exists (String c EmptyString). eexists. reflexivity.
  - destruct d as [| [k x] d]; [discriminate |].
    right. exists k. eexists. reflexivity.
Qed.

Section Walk_breaks.
Context {S : Type}.
Variable leaf : S -> value -> result S.

(** The loop over the field stops at once, or its first item is a
    string, which cannot be subscripted with a key. *)
Lemma walk_breaks (k1 k2 : string) (path : list string) (msg : dict)
    (v : value) :
  lookup k1 msg = Some v ->
  breaks_loop v = true ->
  forall s, exists e, walk (k1 :: k2 :: path) leaf s (VDict msg) = Raise e.
Proof.
  intros Hk Hv s. cbn [walk subscript]. rewrite Hk. cbn [bind].
  destruct (breaks_loop_iter v Hv) as [[e He] | [str [rest He]]]; rewrite He.
  - exists e. reflexivity.
  - exists TypeError. reflexivity.
Qed.

Lemma walk_skips (k : string) (path : list string) (msg : dict) (v : value) :
  lookup k msg = Some v ->
  iter v = Ok [] ->
  forall s, walk (k :: path) leaf s (VDict msg) = Ok s.
Proof.
  intros Hk Hv s. cbn [walk subscript]. rewrite Hk. cbn [bind].
  rewrite Hv. reflexivity.
Qed.
End Walk_breaks.

(** X14. A metric request whose [resourceMetrics] is not a list makes
    [num_metrics] and [metric_names] raise, unless it is an empty dict
    or an empty string. *)
Theorem non_list_resource_metrics_raises (t : Telemetry.t) (req : Request.t)
    (v : value) :
  In req (Telemetry.metric_requests t) ->
  lookup "resourceMetrics" (Request.message req) = Some v ->
  breaks_loop v = true ->
  (exists e, Telemetry.num_metrics t = Raise e)
  /\ (exists e, Telemetry.metric_names t = Raise e).
Proof.
  intros Hin Hk Hv. rewrite num_metrics_walk, metric_names_walk.
  unfold over_messages. split.
  - apply (for_each_raises _ _ req Hin). intros s.
    exact (walk_breaks _ _ _ _ _ _ Hk Hv s).
  - apply (for_each_raises _ _ req Hin). intros s.
    exact (walk_breaks _ _ _ _ _ _ Hk Hv s).
Qed.

Lemma dict_resource_metrics_raises :
  (exists e,
     Telemetry.num_metrics
       (Telemetry.add_metric two_latency
          (with_resource_metrics (VDict [("scopeMetrics", VList [])])) [] 3)
     = Raise e)
  /\ (exists e,
        Telemetry.metric_names
          (Telemetry.add_metric two_latency
             (with_resource_metrics (VDict [("scopeMetrics", VList [])])) [] 3)
        = Raise e).
Proof.
  apply (non_list_resource_metrics_raises
           (Telemetry.add_metric two_latency
              (with_resource_metrics (VDict [("scopeMetrics", VList [])]))
              [] 3)
           (Request.Build
              (with_resource_metrics (VDict [("scopeMetrics", VList [])]))
              [] 3)
           (VDict [("scopeMetrics", VList [])])).
  - right. right. left. reflexivity.
  - reflexivity.
  - reflexivity.
Defined.

(** X15. A metric request whose [resourceMetrics] has no item to visit, be
    it an empty list, an empty dict or an empty string, changes neither
    [num_metrics] nor [metric_names]. *)
Theorem empty_resource_metrics_is_skipped (t : Telemetry.t)
    (metric headers : dict) (test_elapsed_ms : Z) (v : value) :
  lookup "resourceMetrics" metric = Some v ->
  iter v = Ok [] ->
  Telemetry.num_metrics (Telemetry.add_metric t metric headers test_elapsed_ms)
  = Telemetry.num_metrics t
  /\ Telemetry.metric_names
       (Telemetry.add_metric t metric headers test_elapsed_ms)
     = Telemetry.metric_names t.
Proof.
  intros Hk Hv. rewrite !num_metrics_walk, !metric_names_walk.
  unfold over_messages.
  cbn [Telemetry.add_metric Telemetry.metric_requests].
  rewrite !for_each_app. cbn [for_each Request.message].
  split;
    (destruct (for_each _ (Telemetry.metric_requests t) _) as [s | e];
     cbn [bind]; [| reflexivity]).
  - rewrite (walk_skips (count_leaf "metrics") _ _ _ _ Hk Hv). reflexivity.
  - unfold metrics_path.
    rewrite (walk_skips (add_leaf "name") _ _ _ _ Hk Hv). reflexivity.
Qed.

Lemma empty_dict_resource_metrics_is_skipped :
  Telemetry.num_metrics
    (Telemetry.add_metric two_latency (with_resource_metrics (VDict [])) [] 3)
  = Telemetry.num_metrics two_latency
  /\ Telemetry.metric_names
       (Telemetry.add_metric two_latency (with_resource_metrics (VDict []))
          [] 3)
     = Telemetry.metric_names two_latency.
Proof.
  apply (empty_resource_metrics_is_skipped two_latency
           (with_resource_metrics (VDict [])) [] 3 (VDict []));
    reflexivity.
Defined.

(** ** Which exception, and which requests matter *)

(** X16. When the metric requests before it have the shape of the schema, a
    request without [resourceMetrics] makes [num_metrics] raise the
    [KeyError] of that key, whatever comes after it. *)
Theorem first_missing_key_is_reported (logs pre post traces : list Request.t)
    (req : Request.t) :
  Forall (conforms metrics_path) pre ->
  lookup "resourceMetrics" (Request.message req) = None ->
  Telemetry.num_metrics (Telemetry.Build logs (pre ++ req :: post) traces)
  = Raise (KeyError "resourceMetrics").
Proof.
  intros Hpre Hreq. rewrite num_metrics_walk. unfold over_messages.
  cbn [Telemetry.metric_requests]. rewrite for_each_app.
  fold (over_messages (walk ["resourceMetrics"; "scopeMetrics"]
                         (count_leaf "metrics")) pre 0).
  rewrite (count_total _ _ _ _ Hpre 0). cbn [bind for_each walk subscript].
  rewrite Hreq. reflexivity.
Qed.

Lemma missing_resource_metrics_is_reported :
  Telemetry.num_metrics
    (Telemetry.Build []
       ([Request.Build (synthetic 1 2 1) [] 0]
        ++ Request.Build [("resourceSpans", VList [])] [] 1
        :: [Request.Build [] [] 2])
       [])
  = Raise (KeyError "resourceMetrics").
Proof.
  apply (first_missing_key_is_reported []
           [Request.Build (synthetic 1 2 1) [] 0]
           [Request.Build [] [] 2] []
           (Request.Build [("resourceSpans", VList [])] [] 1)).
  - repeat constructor. unfold conforms. vm_compute. discriminate.
  - reflexivity.
Defined.



(** X18. What [get_header] reads from a trace request, [has_trace_header]
    finds, when it is a string or, for a request without the key,
    [None]. *)
Theorem has_trace_header_finds_get_header (t : Telemetry.t) (req : Request.t)
    (key : string) :
  In req (Telemetry.trace_requests t) ->
  (Request.get_header req key = VNone
   \/ exists s, Request.get_header req key = VStr s) ->
  Telemetry.has_trace_header t key (Request.get_header req key) = true.
Proof.
  intros Hin Hv. unfold Telemetry.has_trace_header.
  apply has_header_in_exists. exists req. split; [exact Hin |].
  destruct Hv as [-> | [s ->]]; [reflexivity | apply py_eq_str; reflexivity].
Qed.

Lemma abc_trace_finds_its_headers :
  Telemetry.has_trace_header abc_trace "x-test" (VStr "abc") = true
  /\ Telemetry.has_trace_header abc_trace "x-absent" VNone = true.
Proof.
  split.
  - apply (has_trace_header_finds_get_header abc_trace
             (Request.Build [] [("x-test", VStr "abc")] 5) "x-test").
    + right. left. reflexivity.
    + right. exists "abc". reflexivity.
  - apply (has_trace_header_finds_get_header abc_trace
             (Request.Build [] [("x-test", VStr "abc")] 5) "x-absent").
    + right. left. reflexivity.
    + left. reflexivity.
Defined.
